(** * Deadline table, phase resolver and message parser of
      [diplomacy/src/scripts/gameparser.py]

    A shallow embedding of the classes [Time], [TimeList] and [Message].

    Conventions of the model.
    - A Python [str] is a [string]; its characters are the code points
      0..127.  Code points above 127 are carried along as opaque characters
      that are neither whitespace, nor cased, nor digits.
    - A Python [int] is a [Z].
    - A call that can raise returns an [outcome]: [Returns v] for a normal
      return, [Raises e] for an exception that leaves the call.
    - [os.linesep] is the POSIX line separator, one line feed.
    - The file object iterated by [TimeList.__init__] is the list of its
      lines, each as the iterator yields it (with its line terminator).
    - The script at the end of the file is modelled on the files that
      [os.walk] lists, in the order it lists them, each with its path and
      its lines. *)

From Stdlib Require Import String Ascii List ZArith Bool Arith Lia.
From Stdlib Require Import DecimalString DecimalPos.
Import ListNotations.
Local Open Scope string_scope.
Local Open Scope nat_scope.

(** ** Outcomes of a call *)

(** The built-in exceptions that the modelled code can raise. *)
Inductive exn : Type :=
| ValueError      (* unpacking a wrong number of values, [int], [strptime] *)
| IndexError      (* subscript out of range *)
| StopIteration.  (* [next] on an exhausted generator *)

Inductive outcome (A : Type) : Type :=
| Returns (v : A)
| Raises (e : exn).
Arguments Returns {A} v.
Arguments Raises {A} e.

Definition bind {A B} (o : outcome A) (k : A -> outcome B) : outcome B :=
  match o with
  | Returns v => k v
  | Raises e => Raises e
  end.

Notation "x <- o ;; k" := (bind o (fun x => k))
  (at level 61, o at next level, right associativity).

Definition raises {A} (o : outcome A) : Prop := exists e, o = Raises e.

(** [[f(x) for x in xs]]: the calls happen in order, the first exception
    leaves the comprehension. *)
Fixpoint comprehension {A B} (f : A -> outcome B) (xs : list A)
  : outcome (list B) :=
  match xs with
  | [] => Returns []
  | x :: xs' =>
      y <- f x ;;
      ys <- comprehension f xs' ;;
      Returns (y :: ys)
  end.

(** ** The [str] methods used by the parser *)

Module Str.

Definition LF : ascii := ascii_of_nat 10.

(** [str.isspace] on one character: TAB, LF, VT, FF, CR, FS, GS, RS, US and
    the space. *)
Definition isspace (c : ascii) : bool :=
  let n := nat_of_ascii c in
  ((9 <=? n) && (n <=? 13)) || ((28 <=? n) && (n <=? 32)).

Definition isupper (c : ascii) : bool :=
  let n := nat_of_ascii c in (65 <=? n) && (n <=? 90).

Definition islower (c : ascii) : bool :=
  let n := nat_of_ascii c in (97 <=? n) && (n <=? 122).

Definition to_lower (c : ascii) : ascii :=
  if isupper c then ascii_of_nat (nat_of_ascii c + 32) else c.

Definition to_upper (c : ascii) : ascii :=
  if islower c then ascii_of_nat (nat_of_ascii c - 32) else c.

Definition is_empty (s : string) : bool :=
  match s with EmptyString => true | _ => false end.

Fixpoint whitespace_only (s : string) : bool :=
  match s with
  | EmptyString => true
  | String c s' => isspace c && whitespace_only s'
  end.

(** Dropping the leading, then the trailing characters that pass [p]. *)
Fixpoint lstrip_by (p : ascii -> bool) (s : string) : string :=
  match s with
  | EmptyString => EmptyString
  | String c s' => if p c then lstrip_by p s' else s
  end.

Fixpoint rstrip_by (p : ascii -> bool) (s : string) : string :=
  match s with
  | EmptyString => EmptyString
  | String c s' =>
      let r := rstrip_by p s' in
      if is_empty r && p c then EmptyString else String c r
  end.

(** [s.strip()] *)
Definition strip (s : string) : string :=
  rstrip_by isspace (lstrip_by isspace s).

(** [s.lower()] *)
Fixpoint lower (s : string) : string :=
  match s with
  | EmptyString => EmptyString
  | String c s' => String (to_lower c) (lower s')
  end.

(** [s.title()]: a cased character is upper-cased when the character before
    it is not cased, lower-cased otherwise. *)
Fixpoint title_from (prev_cased : bool) (s : string) : string :=
  match s with
  | EmptyString => EmptyString
  | String c s' =>
      let cased := isupper c || islower c in
      String (if prev_cased then to_lower c else to_upper c)
             (title_from cased s')
  end.

Definition title (s : string) : string := title_from false s.

(** [s.startswith(p)] *)
Definition startswith (s p : string) : bool := String.prefix p s.

(** [s.split(sep)] for a non-empty [sep]: the occurrences of [sep] are
    found from the left and do not overlap.  [skip] counts the characters of
    an occurrence still to be passed over, [cur] is the piece being read. *)
Fixpoint split_from (sep : string) (skip : nat) (cur : string) (s : string)
  : list string :=
  match s with
  | EmptyString => [cur]
  | String c s' =>
      match skip with
      | S k => split_from sep k cur s'
      | O =>
          if String.prefix sep s
          then cur :: split_from sep (String.length sep - 1) EmptyString s'
          else split_from sep O (cur ++ String c EmptyString) s'
      end
  end.

Definition split (s sep : string) : list string :=
  split_from sep O EmptyString s.

(** [sep.join(xs)] *)
Definition join (sep : string) (xs : list string) : string :=
  String.concat sep xs.

(** [sub in s] *)
Fixpoint contains (sub s : string) : bool :=
  String.prefix sub s ||
  match s with
  | EmptyString => false
  | String _ s' => contains sub s'
  end.

(** [s.endswith(suf)] *)
Fixpoint endswith (s suf : string) : bool :=
  String.eqb s suf ||
  match s with
  | EmptyString => false
  | String _ s' => endswith s' suf
  end.

End Str.

(** ** Subscripts *)

(** [xs[i]] for [i >= 0]. *)
Definition subscript {A} (xs : list A) (i : nat) : outcome A :=
  match nth_error xs i with
  | Some x => Returns x
  | None => Raises IndexError
  end.

(** [xs[-k]] for [k >= 1]. *)
Definition subscript_neg {A} (xs : list A) (k : nat) : outcome A :=
  if length xs <? k then Raises IndexError
  else subscript xs (length xs - k).

(** [next(g)] without a default, [g] a generator over the list [xs]. *)
Definition next {A} (xs : list A) : outcome A :=
  match xs with
  | x :: _ => Returns x
  | [] => Raises StopIteration
  end.

(** [[i for i, x in enumerate(xs) if p(x)]], counting from [i]. *)
Fixpoint indices_from {A} (p : A -> bool) (i : nat) (xs : list A) : list nat :=
  match xs with
  | [] => []
  | x :: xs' =>
      if p x then i :: indices_from p (S i) xs' else indices_from p (S i) xs'
  end.

(** ** [int], [datetime] and the dynamically typed year *)

Definition digit (c : ascii) : option nat :=
  let n := nat_of_ascii c in
  if (48 <=? n) && (n <=? 57) then Some (n - 48) else None.

(** The digits of an [int] literal string: decimal digits, with single
    underscores allowed between two digits.  [after_digit] tells whether the
    character just read was a digit. *)
Fixpoint int_digits (acc : Z) (after_digit : bool) (s : string) : option Z :=
  match s with
  | EmptyString => if after_digit then Some acc else None
  | String c s' =>
      match digit c with
      | Some d => int_digits (10 * acc + Z.of_nat d) true s'
      | None =>
          if Ascii.eqb c "_" && after_digit
          then int_digits acc false s'
          else None
      end
  end.

(** The whitespace that [int] skips around the number: TAB, LF, VT, FF, CR
    and the space (not FS, GS, RS, US, which [str.strip] drops). *)
Definition int_space (c : ascii) : bool :=
  let n := nat_of_ascii c in
  ((9 <=? n) && (n <=? 13)) || (n =? 32).

(** [int(s)] for a [str]: surrounding whitespace is dropped, a sign may come
    first, anything else that is not a digit string is a [ValueError]. *)
Definition int (s : string) : outcome Z :=
  let body :=
    match Str.rstrip_by int_space (Str.lstrip_by int_space s) with
    | String "+" r => int_digits 0 false r
    | String "-" r => option_map Z.opp (int_digits 0 false r)
    | r => int_digits 0 false r
    end in
  match body with
  | Some n => Returns n
  | None => Raises ValueError
  end.

(** A [datetime] as [strptime] builds it from the format ["%H:%M"]: the date
    is always 1900-01-01 and the seconds are 0, so only the hour and the
    minute tell two values apart. *)
Record datetime : Type := { hour : nat; minute : nat }.

(** [a < b] and [a == b] on [datetime]: field by field, the hour first. *)
Definition dt_lt (a b : datetime) : bool :=
  (hour a <? hour b) || ((hour a =? hour b) && (minute a <? minute b)).

Definition dt_eq (a b : datetime) : bool :=
  (hour a =? hour b) && (minute a =? minute b).

(** The directive [%M] at the head of [s]: two digits forming 00..59 when
    they are there, else one digit.  Returns the value and the rest. *)
Definition directive_M (s : string) : option (nat * string) :=
  match s with
  | String a rest =>
      match digit a with
      | Some x =>
          match rest with
          | String b rest' =>
              match digit b with
              | Some y => if x <=? 5 then Some (10 * x + y, rest')
                          else Some (x, rest)
              | None => Some (x, rest)
              end
          | EmptyString => Some (x, rest)
          end
      | None => None
      end
  | EmptyString => None
  end.

(** The directive [%H] at the head of [s]: two digits forming 00..23 when
    they are there, else one digit. *)
Definition directive_H (s : string) : option (nat * string) :=
  match s with
  | String a rest =>
      match digit a with
      | Some x =>
          match rest with
          | String b rest' =>
              match digit b with
              | Some y => if 10 * x + y <=? 23 then Some (10 * x + y, rest')
                          else Some (x, rest)
              | None => Some (x, rest)
              end
          | EmptyString => Some (x, rest)
          end
      | None => None
      end
  | EmptyString => None
  end.

(** [datetime.strptime(s, "%H:%M")]: the hour, a colon, the minute and
    nothing after it; [ValueError] otherwise. *)
Definition strptime_HM (s : string) : outcome datetime :=
  match directive_H s with
  | Some (h, String ":" rest) =>
      match directive_M rest with
      | Some (m, EmptyString) => Returns {| hour := h; minute := m |}
      | _ => Raises ValueError
      end
  | _ => Raises ValueError
  end.


Definition digit_char (d : nat) : ascii := ascii_of_nat (48 + d).

(** A number below 100 on two digits, as the directives [%H] and [%M] of
    [strftime] print it. *)
Definition two_digits (n : nat) : string :=
  String (digit_char (n / 10)) (String (digit_char (n mod 10)) EmptyString).

(** [t.strftime("%H:%M")] *)
Definition strftime_HM (t : datetime) : string :=
  two_digits (hour t) ++ ":" ++ two_digits (minute t).

(** The values a year takes in the program: the deadline record keeps the
    token of the schedule line, the message parser converts it with [int]. *)
Inductive value : Type :=
| VStr (s : string)
| VInt (n : Z).

(** [a == b]: a [str] and an [int] are never equal. *)
Definition py_eq (a b : value) : bool :=
  match a, b with
  | VStr x, VStr y => String.eqb x y
  | VInt x, VInt y => Z.eqb x y
  | _, _ => false
  end.

(** Truth value of what [after_deadline] hands back: [True], [False], or
    [None] when the function body ends without a [return]. *)
Definition truthy (r : option bool) : bool :=
  match r with
  | Some b => b
  | None => false
  end.

Definition os_linesep : string := String Str.LF EmptyString.

(** ** [class Time] *)

Module Time.

Record t : Type := {
  season : string;
  year : value;
  phase : string;
  time : datetime
}.

(** [Time.__init__(self, line)] *)
Definition __init__ (line : string) : outcome t :=
  match Str.split (Str.strip line) " " with
  | [season_; year_; phase_; _; _month; _day; _year; time_; _tz] =>
      time' <- strptime_HM time_ ;;
      Returns {| season := season_; year := VStr year_; phase := phase_;
                 time := time' |}
  | _ => Raises ValueError
  end.

End Time.

(** ** [class TimeList] *)

Module TimeList.

Record t : Type := { times : list Time.t }.

(** The condition of the comprehension in [TimeList.__init__]. *)
Definition kept (line : string) : bool :=
  negb (Str.is_empty (Str.strip line))
  && negb (String.eqb (Str.strip line) "Winter 1900")
  && negb (String.eqb (Str.strip line) "Fall 1905 Retreat").

(** [TimeList.__init__(self, path)], on the lines of the file at [path]. *)
Definition __init__ (f : list string) : outcome t :=
  ts <- comprehension Time.__init__ (filter kept f) ;;
  Returns {| times := ts |}.

(** The loop of [after_deadline] over [self.times]. *)
Fixpoint after_deadline_loop (ts : list Time.t) (season : string)
  (year : value) (time : datetime) (msg : string) : outcome (option bool) :=
  match ts with
  | [] => Returns None
  | t :: ts' =>
      if String.eqb (Time.season t) season
         && py_eq (Time.year t) year
         && String.eqb (Time.phase t) "Orders"
      then
        if dt_lt time (Time.time t) then Returns (Some false)
        else if dt_eq time (Time.time t) then
          if String.length msg <? 50 then Returns (Some true)
          else Returns (Some false)
        else Returns (Some true)
      else after_deadline_loop ts' season year time msg
  end.

(** [TimeList.after_deadline(self, season, year, time, msg)] *)
Definition after_deadline (self : t) (season : string) (year : value)
  (time : datetime) (msg : string) : outcome (option bool) :=
  after_deadline_loop (times self) season year time msg.

End TimeList.

(** ** [class Message] *)

Module Message.

Record t : Type := {
  from_ : string;
  year : Z;
  season : string;
  to : string;
  message : string;
  time : datetime
}.

Definition is_from (line : string) : bool :=
  Str.startswith (Str.lower line) "from:".
Definition is_date (line : string) : bool :=
  Str.startswith (Str.lower line) "date:".
Definition is_cc (line : string) : bool :=
  Str.startswith (Str.lower line) "cc:".

(** The object after the assignment to [self.time]: the fields as the
    headers state them. *)
Definition fields (txt : string) : outcome t :=
  let txt := Str.split txt os_linesep in
  from_line <- next (filter is_from txt) ;;
  date_line <- next (filter is_date txt) ;;
  to_line <- next (filter is_cc txt) ;;
  to_line_index <- subscript (indices_from is_cc 0 txt) 0 ;;
  let msg_body := Str.join os_linesep (skipn (to_line_index + 1) txt) in
  from_part <- subscript (Str.split from_line "From:") 1 ;;
  let from_' := Str.title (Str.lower (Str.strip from_part)) in
  date_part <- subscript (Str.split date_line "Date:") 1 ;;
  let date := Str.strip date_part in
  year_token <- subscript_neg (Str.split date " ") 1 ;;
  year' <- int year_token ;;
  season' <- subscript_neg (Str.split date " ") 2 ;;
  to_part <- subscript (Str.split to_line "CC:") 1 ;;
  let to' := Str.title (Str.lower (Str.strip to_part)) in
  let message' := Str.strip msg_body in
  time_token <- subscript (Str.split date_line " ") 4 ;;
  time' <- strptime_HM time_token ;;
  Returns {| from_ := from_'; year := year'; season := season'; to := to';
             message := message'; time := time' |}.

(** The block under [# Change season if after deadline], given what
    [after_deadline] handed back: both assignments read the season of
    before the block. *)
Definition change_season (after : option bool) (self : t) : t :=
  if truthy after then
    {| from_ := from_ self;
       year := if String.eqb (season self) "Fall"
               then (year self + 1)%Z else year self;
       season := if String.eqb (season self) "Spring"
                 then "Fall" else "Spring";
       to := to self;
       message := message self;
       time := time self |}
  else self.

(** [Message.__init__(self, txt, timelist)] *)
Definition __init__ (txt : string) (timelist : TimeList.t) : outcome t :=
  self <- fields txt ;;
  after <- TimeList.after_deadline timelist (season self) (VInt (year self))
             (time self) (message self) ;;
  Returns (change_season after self).


End Message.

(** ** The script under [if __name__ == "__main__"] *)

Module Script.

(** A file that [os.walk] lists: its path and the lines its iterator
    yields. *)
Record file : Type := { path : string; lines : list string }.

Definition is_separator (line : string) : bool :=
  Str.startswith line "=============".

(** The loop [for line in f]; [texts] and [s] are the variables it
    updates. *)
Fixpoint read_lines (f : list string) (texts : list string) (s : string)
  : list string * string :=
  match f with
  | [] => (texts, s)
  | line :: f' =>
      if is_separator line
      then read_lines f' (texts ++ [s])%list EmptyString
      else read_lines f' texts (s ++ (line ++ os_linesep))
  end.

(** The loop [for path in filepaths]: [s] starts empty in every file and
    what it holds at the end of a file is not kept. *)
Fixpoint read_files (fs : list file) (texts : list string) : list string :=
  match fs with
  | [] => texts
  | f :: fs' => read_files fs' (fst (read_lines (lines f) texts EmptyString))
  end.

(** The script: [None] when it prints the usage line and exits, else the
    outcome of building [msgs].  [walked] are the files under [argv[1]],
    [timefile] the lines of the file at [argv[2]]. *)
Definition main (argv : list string) (walked : list file)
  (timefile : list string) : option (outcome (list Message.t)) :=
  if length argv <? 3 then None
  else
    let filepaths :=
      filter (fun f => Str.endswith (path f) ".txt") walked in
    let texts := read_files filepaths [] in
    Some (timelist <- TimeList.__init__ timefile ;;
          comprehension (fun t => Message.__init__ t timelist) texts).

End Script.

(** ** Vocabulary of the statements *)

(** The condition under which [after_deadline] stops at a record. *)
Definition matches (season : string) (year : value) (t : Time.t) : bool :=
  String.eqb (Time.season t) season
  && py_eq (Time.year t) year
  && String.eqb (Time.phase t) "Orders".

(** The record that answers a query: the first one, in file order, that
    matches. *)
Definition consulted (self : TimeList.t) (season : string) (year : value)
  : option Time.t :=
  find (matches season year) (TimeList.times self).

(** What [after_deadline] answers once it has stopped at the record [r]. *)
Definition verdict (r : Time.t) (time : datetime) (msg : string) : bool :=
  if dt_lt time (Time.time r) then false
  else if dt_eq time (Time.time r) then String.length msg <? 50
  else true.

(** Some line of the block passes the test [p]. *)
Definition has_header (p : string -> bool) (txt : string) : bool :=
  existsb p (Str.split txt os_linesep).

(** The first line of the block that passes the test [p]. *)
Definition header_line (p : string -> bool) (txt : string) : option string :=
  hd_error (filter p (Str.split txt os_linesep)).

(** A line that the schedule loader passes over: blank, or one of the two
    literal lines, with or without the whitespace around it (the line
    terminator that the file iterator leaves is whitespace). *)
Definition skipped (line : string) : Prop :=
  Str.whitespace_only line = true
  \/ Str.strip line = "Winter 1900"
  \/ Str.strip line = "Fall 1905 Retreat".

(** Following the spec's words, "whitespace-separated tokens": the maximal
    runs of characters that are not whitespace.  The loader does not cut a
    line this way; see [tokens] below for what it does. *)
Fixpoint whitespace_runs (cur : string) (s : string) : list string :=
  match s with
  | EmptyString => if Str.is_empty cur then [] else [cur]
  | String c s' =>
      if Str.isspace c
      then (if Str.is_empty cur then whitespace_runs EmptyString s'
            else cur :: whitespace_runs EmptyString s')
      else whitespace_runs (cur ++ String c EmptyString) s'
  end.

Definition whitespace_separated_tokens (line : string) : list string :=
  whitespace_runs EmptyString line.

(** The tokens of a schedule line as the loader cuts them. *)
Definition tokens (line : string) : list string :=
  Str.split (Str.strip line) " ".

(** ** Sample data *)

Module Samples.

Definition at_ (h m : nat) : datetime := {| hour := h; minute := m |}.

(** The schedule line of the end-to-end example, and the same line with the
    year and the time in the order [Time.__init__] reads them. *)
Definition line_time_first : string :=
  "Fall 1904 Orders Mon Oct 7 16:45 1904 UTC".
Definition line_year_first : string :=
  "Fall 1904 Orders Mon Oct 7 1904 16:45 UTC".
Definition line_year_first_1700 : string :=
  "Fall 1904 Orders Mon Oct 7 1904 17:00 UTC".
Definition line_two_spaces : string :=
  "Fall  1904 Orders Mon Oct 7 1904 16:45 UTC".

Definition fall_1904 (h m : nat) : Time.t :=
  {| Time.season := "Fall"; Time.year := VStr "1904";
     Time.phase := "Orders"; Time.time := at_ h m |}.

Definition table_1904 : TimeList.t := {| TimeList.times := [fall_1904 16 45] |}.

(** Two Orders records for the same season and year. *)
Definition table_twice : TimeList.t :=
  {| TimeList.times := [fall_1904 16 45; fall_1904 17 0] |}.

Definition body80 : string :=
  "0123456789012345678901234567890123456789"
  ++ "0123456789012345678901234567890123456789".

Definition block (from_line date_line cc_line body : string) : string :=
  Str.join os_linesep [from_line; date_line; cc_line; body].

Definition block_1904 : string :=
  block "From: england" "Date: Mon Oct 7 16:53 1904 Fall 1904"
        "CC: france" body80.

Definition block_no_cc : string :=
  Str.join os_linesep
    ["From: england"; "Date: Mon Oct 7 16:53 1904 Fall 1904"; body80].

Definition block_from_twice : string :=
  block "FROM: a From: b" "Date: Mon Oct 7 16:53 1904 Fall 1904"
        "CC: france" "hello".

Definition block_upper_from : string :=
  block "FROM: x" "Date: Mon Oct 7 16:53 1904 Fall 1904"
        "CC: france" "hello".

Definition block_lower_cc : string :=
  block "From: england" "Date: Mon Oct 7 16:53 1904 Fall abc"
        "cc: france" "hello".

(** A table whose record keeps the year as an integer; the loader never
    builds one, the constructor of [Message] accepts it. *)
Definition table_int_year : TimeList.t :=
  {| TimeList.times :=
       [{| Time.season := "Fall"; Time.year := VInt 1904;
           Time.phase := "Orders"; Time.time := at_ 16 45 |}] |}.

Definition nominal_1904 : Message.t :=
  {| Message.from_ := "England"; Message.year := 1904;
     Message.season := "Fall"; Message.to := "France";
     Message.message := body80; Message.time := at_ 16 53 |}.

Definition spring_1901 : Message.t :=
  {| Message.from_ := "England"; Message.year := 1901;
     Message.season := "Spring"; Message.to := "France";
     Message.message := "hello"; Message.time := at_ 16 53 |}.

End Samples.

(** ** Vocabulary of the further statements *)

(** A time of day as a clock shows it. *)
Definition valid_time (t : datetime) : Prop :=
  hour t <= 23 /\ minute t <= 59.

Definition is_orders (r : Time.t) : bool :=
  String.eqb (Time.phase r) "Orders".

(** The character [c] occurs nowhere in [s]. *)
Fixpoint lacks (c : ascii) (s : string) : bool :=
  match s with
  | EmptyString => true
  | String a s' => negb (Ascii.eqb a c) && lacks c s'
  end.

(** The lines [ls], each followed by [os.linesep], one after the other:
    what the script has gathered in [s] after reading them. *)
Fixpoint gathered (ls : list string) : string :=
  match ls with
  | [] => EmptyString
  | l :: ls' => l ++ os_linesep ++ gathered ls'
  end.


(** The lines of a file cut at its separator lines: the groups that a
    separator line closes, and the lines left after the last one. *)
Fixpoint groups (f : list string) (cur : list string)
  : list (list string) * list string :=
  match f with
  | [] => ([], cur)
  | line :: f' =>
      if Script.is_separator line
      then let (gs, rest) := groups f' [] in (cur :: gs, rest)
      else groups f' (cur ++ [line])%list
  end.

(** The blocks that the script gathers from the files that [os.walk]
    lists: the variable [texts] when the loops are over. *)
Definition texts_of (walked : list Script.file) : list string :=
  Script.read_files
    (filter (fun f => Str.endswith (Script.path f) ".txt") walked) [].

(** The number of separator lines of a file. *)
Definition separators (f : Script.file) : nat :=
  length (filter Script.is_separator (Script.lines f)).

(** [s] has no whitespace at either end. *)
Definition trimmed (s : string) : Prop := Str.strip s = s.

Module MoreSamples.

Definition log_file : Script.file :=
  {| Script.path := "game/log.txt";
     Script.lines :=
       [ "From: england" ++ os_linesep;
         "Date: Mon Oct 7 16:53 1904 Fall 1904" ++ os_linesep;
         "CC: france" ++ os_linesep;
         "hello" ++ os_linesep;
         "there" ++ os_linesep;
         "=============" ++ os_linesep;
         "From: nobody" ++ os_linesep ] |}.

Definition notes_file : Script.file :=
  {| Script.path := "game/notes.md";
     Script.lines := [ "=============" ++ os_linesep ] |}.


Definition winter_1901 : Message.t :=
  {| Message.from_ := "England"; Message.year := 1901;
     Message.season := "Winter"; Message.to := "France";
     Message.message := "hello"; Message.time := Samples.at_ 16 53 |}.

End MoreSamples.

(** * Properties *)

(** ** Evaluation of the model on small inputs *)

Example split_spaces : Str.split "a b  c" " " = ["a"; "b"; ""; "c"].
Proof. reflexivity. Qed.

Example split_word :
  Str.split "FROM: a From: b" "From:" = ["FROM: a "; " b"].
Proof. reflexivity. Qed.

Example split_overlap : Str.split "aaa" "aa" = [""; "a"].
Proof. reflexivity. Qed.

Example split_absent : Str.split "from: x" "From:" = ["from: x"].
Proof. reflexivity. Qed.

Example strip_both : Str.strip "  Fall 1904  " = "Fall 1904".
Proof. reflexivity. Qed.

Example title_lower :
  Str.title (Str.lower "jOHN  o'neil-smith 3rd x1y")
  = "John  O'Neil-Smith 3Rd X1Y".
Proof. reflexivity. Qed.

Example split_edges :
  Str.split "" " " = [""] /\ Str.split "abab" "ab" = [""; ""; ""].
Proof. repeat split. Qed.

Example int_accepts :
  map int ["  -1_000 "; "007"; "+1"; "-0"; "1_0"]
  = map Returns [-1000; 7; 1; 0; 10]%Z.
Proof. reflexivity. Qed.

Example int_rejects :
  map int [""; "+"; "+-1"; "+ 1"; "_1"; "1_"; "1__0"; "abc";
           String (ascii_of_nat 28) "1"]
  = repeat (Raises ValueError) 9.
Proof. reflexivity. Qed.

Example strptime_accepts :
  map strptime_HM ["16:45"; "7:5"; "23:59"; "19:7"; "00:00"]
  = map Returns [Samples.at_ 16 45; Samples.at_ 7 5; Samples.at_ 23 59;
                 Samples.at_ 19 7; Samples.at_ 0 0].
Proof. reflexivity. Qed.

Example strptime_rejects :
  map strptime_HM ["24:00"; "16:60"; "1904"; "16:453"; "25:1"; "3:61";
                   " 1:2"; "1:2 "; "009:1"; "1:009"; "9:5x"; "ab:cd"]
  = repeat (Raises ValueError) 12.
Proof. reflexivity. Qed.

Example Time_year_first :
  Time.__init__ Samples.line_year_first = Returns (Samples.fall_1904 16 45).
Proof. reflexivity. Qed.

Example fields_block_1904 :
  Message.fields Samples.block_1904
  = Returns {| Message.from_ := "England"; Message.year := 1904;
               Message.season := "Fall"; Message.to := "France";
               Message.message := Samples.body80;
               Message.time := Samples.at_ 16 53 |}.
Proof. reflexivity. Qed.

(** ** Outcomes and comprehensions *)

Lemma bind_Returns_inv {A B} (o : outcome A) (k : A -> outcome B) (v : B) :
  bind o k = Returns v -> exists x, o = Returns x /\ k x = Returns v.
Proof.
  destruct o as [x|e]; simpl; intros H; [eauto | discriminate].
Qed.

Lemma comprehension_Forall {A B} (f : A -> outcome B) (P : B -> Prop) :
  (forall x y, f x = Returns y -> P y) ->
  forall xs ys, comprehension f xs = Returns ys -> Forall P ys.
Proof.
  intros Hf xs; induction xs as [|x xs IH]; simpl; intros ys H.
  - injection H as <-. constructor.
  - apply bind_Returns_inv in H as (y & Hy & H).
    apply bind_Returns_inv in H as (ys' & Hys & H).
    injection H as <-. constructor; eauto.
Qed.

(** ** Strings *)

Lemma append_empty_r (s : string) : (s ++ "")%string = s.
Proof. induction s; simpl; congruence. Qed.

Lemma append_assoc (a b c : string) :
  ((a ++ b) ++ c)%string = (a ++ (b ++ c))%string.
Proof. induction a; simpl; congruence. Qed.

Lemma lstrip_whitespace_only (s : string) :
  Str.whitespace_only s = true -> Str.lstrip_by Str.isspace s = "".
Proof.
  induction s as [|c s IH]; simpl; [reflexivity|].
  intros H; apply andb_prop in H as [Hc Hs]. rewrite Hc. auto.
Qed.

Lemma strip_whitespace_only (s : string) :
  Str.whitespace_only s = true -> Str.strip s = "".
Proof.
  intros H. unfold Str.strip. now rewrite lstrip_whitespace_only.
Qed.

(** A separator that occurs nowhere leaves the string in one piece. *)
Lemma split_from_absent (sep : string) :
  forall s cur, Str.contains sep s = false ->
    Str.split_from sep 0 cur s = [(cur ++ s)%string].
Proof.
  induction s as [|c s IH]; intros cur H.
  - simpl. now rewrite append_empty_r.
  - cbn [Str.contains] in H. apply orb_false_elim in H as [Hp Hc].
    cbn [Str.split_from]. rewrite Hp, IH by assumption.
    now rewrite append_assoc.
Qed.

Lemma split_absent_one (s sep : string) :
  Str.contains sep s = false -> Str.split s sep = [s].
Proof. intros H. unfold Str.split. now rewrite split_from_absent. Qed.

Lemma subscript_absent_1 (s sep : string) :
  Str.contains sep s = false ->
  subscript (Str.split s sep) 1 = Raises IndexError.
Proof. intros H. now rewrite split_absent_one. Qed.

(** ** Times of day *)

Lemma dt_lt_after (a b : datetime) :
  dt_lt a b = true -> dt_lt b a = false /\ dt_eq b a = false.
Proof.
  unfold dt_lt, dt_eq. destruct a as [ha ma], b as [hb mb]; simpl.
  destruct (Nat.ltb_spec ha hb), (Nat.ltb_spec hb ha),
    (Nat.eqb_spec ha hb), (Nat.eqb_spec hb ha),
    (Nat.ltb_spec ma mb), (Nat.ltb_spec mb ma), (Nat.eqb_spec mb ma);
    simpl; intros; try discriminate; try lia; auto.
Qed.

Lemma dt_eq_not_lt (a b : datetime) : dt_eq a b = true -> dt_lt a b = false.
Proof.
  unfold dt_lt, dt_eq. destruct a as [ha ma], b as [hb mb]; simpl.
  destruct (Nat.ltb_spec ha hb), (Nat.eqb_spec ha hb), (Nat.ltb_spec ma mb),
    (Nat.eqb_spec ma mb); simpl; intros; try discriminate; try lia; auto.
Qed.

(** ** The deadline table *)

(** The loop stops at the first matching record and answers from it alone;
    with no matching record the body ends without a [return]. *)
Lemma after_deadline_consulted (self : TimeList.t) (season : string)
  (year : value) (time : datetime) (msg : string) :
  TimeList.after_deadline self season year time msg
  = Returns (option_map (fun r => verdict r time msg)
                        (consulted self season year)).
Proof.
  unfold TimeList.after_deadline, consulted.
  induction (TimeList.times self) as [|t ts IH]; simpl; [reflexivity|].
  unfold matches at 1.
  destruct (String.eqb (Time.season t) season
            && py_eq (Time.year t) year
            && String.eqb (Time.phase t) "Orders"); [|exact IH].
  simpl. unfold verdict.
  destruct (dt_lt time (Time.time t)); [reflexivity|].
  destruct (dt_eq time (Time.time t)); [|reflexivity].
  destruct (String.length msg <? 50); reflexivity.
Qed.

Lemma consulted_none (self : TimeList.t) (season : string) (year : value) :
  (forall r, In r (TimeList.times self) -> matches season year r = false) ->
  consulted self season year = None.
Proof.
  unfold consulted. intros H.
  destruct (find (matches season year) (TimeList.times self)) as [r|] eqn:E;
    [|reflexivity].
  apply find_some in E as [Hin Hm]. rewrite (H r Hin) in Hm. discriminate.
Qed.

(** [Time.__init__] keeps the year token as it is, a [str]. *)
Lemma Time_init_year_str (line : string) (t : Time.t) :
  Time.__init__ line = Returns t -> exists y, Time.year t = VStr y.
Proof.
  unfold Time.__init__.
  destruct (Str.split (Str.strip line) " ")
    as [|a [|b [|c [|d [|e [|f [|g [|h [|i [|j l]]]]]]]]]];
    try discriminate.
  intros H. apply bind_Returns_inv in H as (dt & _ & H).
  injection H as <-. simpl. eauto.
Qed.

Lemma matches_int_str (season y : string) (n : Z) (r : Time.t) :
  Time.year r = VStr y -> matches season (VInt n) r = false.
Proof.
  intros H. unfold matches. rewrite H. simpl.
  now rewrite andb_false_r.
Qed.

Lemma loaded_years_str (f : list string) (self : TimeList.t) :
  TimeList.__init__ f = Returns self ->
  Forall (fun r => exists y, Time.year r = VStr y) (TimeList.times self).
Proof.
  unfold TimeList.__init__. intros H.
  apply bind_Returns_inv in H as (ts & Hts & H). injection H as <-. simpl.
  eapply comprehension_Forall; [|exact Hts]. apply Time_init_year_str.
Qed.

(** C1. In a table loaded from a schedule file every record keeps its year
    as a string, while the message parser asks with an integer year: no
    record ever matches such a query, [after_deadline] hands back [None]
    (never [True]), and [Message.__init__] leaves the object as the headers
    state it, the resolved season and year being the nominal ones. *)
Theorem int_year_never_matches (f : list string) (self : TimeList.t) :
  TimeList.__init__ f = Returns self ->
  (forall r season n,
      In r (TimeList.times self) -> matches season (VInt n) r = false)
  /\ (forall season n time msg,
         TimeList.after_deadline self season (VInt n) time msg
         = Returns None)
  /\ (forall txt, Message.__init__ txt self = Message.fields txt)
  /\ (forall txt m,
         Message.__init__ txt self = Returns m ->
         exists nominal,
           Message.fields txt = Returns nominal
           /\ Message.season m = Message.season nominal
           /\ Message.year m = Message.year nominal).
Proof.
  intros Hload. pose proof (loaded_years_str _ _ Hload) as Hstr.
  rewrite Forall_forall in Hstr.
  assert (Hm : forall r season n,
             In r (TimeList.times self) -> matches season (VInt n) r = false).
  { intros r season n Hin. destruct (Hstr r Hin) as [y Hy].
    eapply matches_int_str; eassumption. }
  assert (Hnone : forall season n time msg,
             TimeList.after_deadline self season (VInt n) time msg
             = Returns None).
  { intros. rewrite after_deadline_consulted, consulted_none; auto. }
  assert (Heq : forall txt, Message.__init__ txt self = Message.fields txt).
  { intros txt. unfold Message.__init__.
    destruct (Message.fields txt) as [m|e]; simpl; [|reflexivity].
    now rewrite Hnone. }
  repeat split; auto.
  intros txt m H. rewrite Heq in H. eauto.
Qed.

Lemma int_year_never_matches_witness :
  TimeList.__init__ [Samples.line_year_first] = Returns Samples.table_1904
  /\ Message.__init__ Samples.block_1904 Samples.table_1904
     = Message.fields Samples.block_1904.
Proof.
  split; [reflexivity|].
  apply (int_year_never_matches [Samples.line_year_first] Samples.table_1904
           eq_refl).
Defined.

(** C3, as the code has it.  When the send time equals the deadline time of
    the FIRST Orders record matching (season, year), [after_deadline]
    returns [True] for a body shorter than 50 characters and [False] for a
    body of 50 characters or more. *)
Theorem tie_break_first_match (self : TimeList.t) (season : string)
  (year : value) (time : datetime) (msg : string) (r : Time.t) :
  consulted self season year = Some r ->
  dt_eq time (Time.time r) = true ->
  (String.length msg < 50 ->
   TimeList.after_deadline self season year time msg = Returns (Some true))
  /\ (50 <= String.length msg ->
      TimeList.after_deadline self season year time msg
      = Returns (Some false)).
Proof.
  intros Hc Heq. rewrite after_deadline_consulted, Hc. simpl.
  unfold verdict. rewrite (dt_eq_not_lt _ _ Heq), Heq.
  split; intros Hlen.
  - apply Nat.ltb_lt in Hlen. now rewrite Hlen.
  - apply Nat.ltb_ge in Hlen. now rewrite Hlen.
Qed.

Lemma tie_break_first_match_witness :
  TimeList.after_deadline Samples.table_1904 "Fall" (VStr "1904")
    (Samples.at_ 16 45) "short" = Returns (Some true)
  /\ TimeList.after_deadline Samples.table_1904 "Fall" (VStr "1904")
       (Samples.at_ 16 45) Samples.body80 = Returns (Some false).
Proof.
  split.
  - apply (tie_break_first_match Samples.table_1904 "Fall" (VStr "1904")
             (Samples.at_ 16 45) "short" (Samples.fall_1904 16 45)
             eq_refl eq_refl).
    simpl. lia.
  - apply (tie_break_first_match Samples.table_1904 "Fall" (VStr "1904")
             (Samples.at_ 16 45) Samples.body80 (Samples.fall_1904 16 45)
             eq_refl eq_refl).
    simpl. lia.
Defined.

(** C3 as stated fails when the matching record is not the first one: the
    table holds Orders records for Fall 1904 at 16:45 and at 17:00; a
    message of 80 characters sent at 17:00 meets the second record's
    deadline exactly, and the answer is [True], taken from the first. *)
Lemma tie_break_any_match_fails :
  TimeList.__init__ [Samples.line_year_first; Samples.line_year_first_1700]
  = Returns Samples.table_twice
  /\ In (Samples.fall_1904 17 0) (TimeList.times Samples.table_twice)
  /\ matches "Fall" (VStr "1904") (Samples.fall_1904 17 0) = true
  /\ dt_eq (Samples.at_ 17 0) (Time.time (Samples.fall_1904 17 0)) = true
  /\ 50 <= String.length Samples.body80
  /\ TimeList.after_deadline Samples.table_twice "Fall" (VStr "1904")
       (Samples.at_ 17 0) Samples.body80 = Returns (Some true)
  /\ TimeList.after_deadline Samples.table_twice "Fall" (VStr "1904")
       (Samples.at_ 17 0) Samples.body80 <> Returns (Some false).
Proof.
  repeat split; simpl; auto; try lia; discriminate.
Qed.

(** C4, as the code has it.  With respect to the FIRST Orders record
    matching (season, year): a send time strictly before its deadline gives
    [False], a send time strictly after it gives [True], whatever the
    body. *)
Theorem before_after_first_match (self : TimeList.t) (season : string)
  (year : value) (time : datetime) (r : Time.t) :
  consulted self season year = Some r ->
  (dt_lt time (Time.time r) = true ->
   forall msg,
     TimeList.after_deadline self season year time msg
     = Returns (Some false))
  /\ (dt_lt (Time.time r) time = true ->
      forall msg,
        TimeList.after_deadline self season year time msg
        = Returns (Some true)).
Proof.
  intros Hc. split; intros Hlt msg;
    rewrite after_deadline_consulted, Hc; simpl; unfold verdict.
  - now rewrite Hlt.
  - destruct (dt_lt_after _ _ Hlt) as [H1 H2]. now rewrite H1, H2.
Qed.

Lemma before_after_first_match_witness :
  TimeList.after_deadline Samples.table_1904 "Fall" (VStr "1904")
    (Samples.at_ 16 44) "short" = Returns (Some false)
  /\ TimeList.after_deadline Samples.table_1904 "Fall" (VStr "1904")
       (Samples.at_ 16 46) Samples.body80 = Returns (Some true).
Proof.
  split.
  - apply (proj1 (before_after_first_match Samples.table_1904 "Fall"
                    (VStr "1904") (Samples.at_ 16 44)
                    (Samples.fall_1904 16 45) eq_refl) eq_refl).
  - apply (proj2 (before_after_first_match Samples.table_1904 "Fall"
                    (VStr "1904") (Samples.at_ 16 46)
                    (Samples.fall_1904 16 45) eq_refl) eq_refl).
Defined.

(** C4 as stated fails when the matching record is not the first one: with
    Orders records for Fall 1904 at 16:45 and at 17:00, a message sent at
    16:50 is strictly before the second record's deadline, and the answer
    is [True], taken from the first. *)
Lemma before_any_match_fails :
  TimeList.__init__ [Samples.line_year_first; Samples.line_year_first_1700]
  = Returns Samples.table_twice
  /\ In (Samples.fall_1904 17 0) (TimeList.times Samples.table_twice)
  /\ matches "Fall" (VStr "1904") (Samples.fall_1904 17 0) = true
  /\ dt_lt (Samples.at_ 16 50) (Time.time (Samples.fall_1904 17 0)) = true
  /\ TimeList.after_deadline Samples.table_twice "Fall" (VStr "1904")
       (Samples.at_ 16 50) "short" = Returns (Some true)
  /\ TimeList.after_deadline Samples.table_twice "Fall" (VStr "1904")
       (Samples.at_ 16 50) "short" <> Returns (Some false).
Proof.
  repeat split; simpl; auto; discriminate.
Qed.

(** C6, as the code has it.  When no record of the table matches the query
    with phase "Orders", [after_deadline] raises nothing: its body ends
    without a [return] and the call hands back [None]. *)
Theorem no_match_returns_None (self : TimeList.t) (season : string)
  (year : value) (time : datetime) (msg : string) :
  (forall r, In r (TimeList.times self) -> matches season year r = false) ->
  TimeList.after_deadline self season year time msg = Returns None.
Proof.
  intros H. now rewrite after_deadline_consulted, consulted_none.
Qed.

Lemma no_match_returns_None_witness :
  TimeList.after_deadline Samples.table_1904 "Spring" (VStr "1905")
    (Samples.at_ 16 53) "hello" = Returns None.
Proof.
  apply (no_match_returns_None Samples.table_1904 "Spring" (VStr "1905")).
  intros r [<-|[]]. reflexivity.
Defined.

(** C6 as stated fails: queried for Spring 1905, a table that holds only
    the Fall 1904 Orders record returns [None]; no exception leaves the
    call. *)
Lemma no_match_does_not_raise :
  TimeList.__init__ [Samples.line_year_first] = Returns Samples.table_1904
  /\ (forall r, In r (TimeList.times Samples.table_1904) ->
             matches "Spring" (VStr "1905") r = false)
  /\ TimeList.after_deadline Samples.table_1904 "Spring" (VStr "1905")
       (Samples.at_ 16 53) "hello" = Returns None
  /\ ~ raises (TimeList.after_deadline Samples.table_1904 "Spring"
                 (VStr "1905") (Samples.at_ 16 53) "hello").
Proof.
  split; [reflexivity|].
  split; [intros r [<-|[]]; reflexivity|].
  split; [reflexivity|]. intros [e He]. discriminate He.
Qed.

(** ** The phase resolver *)

Lemma change_season_cases (after : option bool) (self : Message.t) :
  (truthy after = true -> Message.season self = "Spring" ->
   Message.season (Message.change_season after self) = "Fall"
   /\ Message.year (Message.change_season after self) = Message.year self)
  /\ (truthy after = true -> Message.season self = "Fall" ->
      Message.season (Message.change_season after self) = "Spring"
      /\ Message.year (Message.change_season after self)
         = (Message.year self + 1)%Z)
  /\ (truthy after = false -> Message.change_season after self = self).
Proof.
  unfold Message.change_season.
  split; [|split].
  - intros Ht Hs. rewrite Ht, Hs. split; reflexivity.
  - intros Ht Hs. rewrite Ht, Hs. split; reflexivity.
  - intros Ht. now rewrite Ht.
Qed.

(** C5. For every block whose headers parse, the constructed message is the
    nominal one passed through the season change: when [after_deadline]
    reports true, nominal Spring becomes Fall of the same year and nominal
    Fall becomes Spring of the year after; when it reports false (or hands
    back [None]) season and year stay the nominal ones. *)
Theorem resolver_advances_one_phase (txt : string) (timelist : TimeList.t)
  (nominal : Message.t) (after : option bool) :
  Message.fields txt = Returns nominal ->
  TimeList.after_deadline timelist (Message.season nominal)
    (VInt (Message.year nominal)) (Message.time nominal)
    (Message.message nominal) = Returns after ->
  exists m,
    Message.__init__ txt timelist = Returns m
    /\ (truthy after = true -> Message.season nominal = "Spring" ->
        Message.season m = "Fall"
        /\ Message.year m = Message.year nominal)
    /\ (truthy after = true -> Message.season nominal = "Fall" ->
        Message.season m = "Spring"
        /\ Message.year m = (Message.year nominal + 1)%Z)
    /\ (truthy after = false ->
        Message.season m = Message.season nominal
        /\ Message.year m = Message.year nominal).
Proof.
  intros Hf Ha. exists (Message.change_season after nominal).
  unfold Message.__init__. rewrite Hf. simpl. rewrite Ha. simpl.
  destruct (change_season_cases after nominal) as (H1 & H2 & H3).
  split; [reflexivity|]. split; [exact H1|]. split; [exact H2|].
  intros Ht. now rewrite H3.
Qed.

Lemma resolver_advances_one_phase_witness :
  exists m,
    Message.__init__ Samples.block_1904 Samples.table_int_year = Returns m
    /\ Message.season m = "Spring" /\ Message.year m = 1905%Z.
Proof.
  destruct (resolver_advances_one_phase Samples.block_1904
              Samples.table_int_year Samples.nominal_1904 (Some true)
              eq_refl eq_refl) as (m & Hm & _ & Hfall & _).
  exists m. split; [exact Hm|]. exact (Hfall eq_refl eq_refl).
Defined.

Example phase_advance_1901 :
  Message.change_season (Some true) Samples.spring_1901
  = {| Message.from_ := "England"; Message.year := 1901;
       Message.season := "Fall"; Message.to := "France";
       Message.message := "hello"; Message.time := Samples.at_ 16 53 |}.
Proof. reflexivity. Qed.

(** ** The end-to-end example *)



(** What the constructor does on the example once the table loads: the
    integer year matches no record and the message stays in Fall 1904. *)
Example end_to_end_stays_nominal :
  Message.__init__ Samples.block_1904 Samples.table_1904
  = Returns Samples.nominal_1904.
Proof. reflexivity. Qed.

(** ** The schedule loader *)

Lemma skipped_not_kept (line : string) :
  skipped line -> TimeList.kept line = false.
Proof.
  unfold TimeList.kept. intros [H|[H|H]].
  - now rewrite (strip_whitespace_only _ H).
  - now rewrite H.
  - now rewrite H.
Qed.

Lemma load_only_skipped (f : list string) :
  Forall skipped f ->
  TimeList.__init__ f = Returns {| TimeList.times := [] |}.
Proof.
  intros H. unfold TimeList.__init__.
  replace (filter TimeList.kept f) with (@nil string); [reflexivity|].
  induction H as [|line f Hl _ IH]; simpl; [reflexivity|].
  now rewrite (skipped_not_kept _ Hl).
Qed.

(** C7. A blank line, the line "Winter 1900" and the line
    "Fall 1905 Retreat" are passed over before any record is parsed:
    wherever such a line stands in the file, the load is the load of the
    file without it, and on its own it gives the empty table, no record
    and no exception. *)
Theorem skipped_lines_are_ignored (line : string) :
  skipped line ->
  (forall before after,
      TimeList.__init__ (before ++ line :: after)%list
      = TimeList.__init__ (before ++ after)%list)
  /\ TimeList.__init__ [line] = Returns {| TimeList.times := [] |}.
Proof.
  intros H. pose proof (skipped_not_kept _ H) as Hk. split.
  - intros before after. unfold TimeList.__init__.
    rewrite !filter_app. simpl. now rewrite Hk.
  - apply load_only_skipped. constructor; [assumption | constructor].
Qed.

Lemma skipped_lines_are_ignored_witness :
  TimeList.__init__
    [Samples.line_year_first; "Winter 1900"; "Fall 1905 Retreat"]
  = Returns Samples.table_1904
  /\ TimeList.__init__ ["Fall 1905 Retreat"]
     = Returns {| TimeList.times := [] |}.
Proof.
  split.
  - exact (eq_trans
             (proj1 (skipped_lines_are_ignored "Winter 1900"
                       (or_intror (or_introl eq_refl)))
                [Samples.line_year_first] ["Fall 1905 Retreat"])
             eq_refl).
  - apply (proj2 (skipped_lines_are_ignored "Fall 1905 Retreat"
                    (or_intror (or_intror eq_refl)))).
Defined.

Example skipped_as_read :
  skipped (String Str.LF "") /\ skipped ("   " ++ os_linesep)
  /\ skipped ("Winter 1900" ++ os_linesep)
  /\ skipped ("Fall 1905 Retreat" ++ os_linesep).
Proof.
  unfold skipped. repeat split; auto.
Qed.

Lemma strptime_HM_raises (s : string) (e : exn) :
  strptime_HM s = Raises e -> e = ValueError.
Proof.
  unfold strptime_HM.
  destruct (directive_H s) as [[h [|c rest]]|]; try congruence.
  destruct (Ascii.eqb_spec c ":") as [->|Hc].
  - destruct (directive_M rest) as [[m [|c' r']]|]; congruence.
  - destruct c as [[] [] [] [] [] [] [] []]; congruence.
Qed.

(** C9 as stated fails: a line with two spaces between two fields has the
    nine whitespace-separated tokens in the expected order, with a good
    time of day, and the load raises, because the line is cut at every
    single space and gives ten pieces. *)
Lemma two_spaces_nine_tokens_raises :
  TimeList.kept Samples.line_two_spaces = true
  /\ whitespace_separated_tokens Samples.line_two_spaces
     = ["Fall"; "1904"; "Orders"; "Mon"; "Oct"; "7"; "1904"; "16:45"; "UTC"]
  /\ length (whitespace_separated_tokens Samples.line_two_spaces) = 9
  /\ strptime_HM "16:45" = Returns (Samples.at_ 16 45)
  /\ length (tokens Samples.line_two_spaces) = 10
  /\ TimeList.__init__ [Samples.line_two_spaces] = Raises ValueError.
Proof.
  repeat split.
Qed.

(** C9, as the code has it.  For a line that is not passed over, the load
    raises (a [ValueError]) exactly when the stripped line, cut at every
    single space, does not give 9 pieces, or the eighth piece is not a time
    of day that [strptime] reads with ["%H:%M"]; otherwise it gives one
    record.  No other piece is examined. *)
Theorem schedule_line_raises_iff (line : string) :
  TimeList.kept line = true ->
  (TimeList.__init__ [line] = Raises ValueError
   <-> (length (tokens line) <> 9
        \/ exists tok, nth_error (tokens line) 7 = Some tok
                       /\ strptime_HM tok = Raises ValueError))
  /\ (TimeList.__init__ [line] = Raises ValueError
      \/ exists r,
           TimeList.__init__ [line] = Returns {| TimeList.times := [r] |}).
Proof.
  intros Hk. unfold TimeList.__init__, tokens. simpl. rewrite Hk. simpl.
  unfold Time.__init__.
  destruct (Str.split (Str.strip line) " ")
    as [|a [|b [|c [|d [|e [|f [|g [|h [|i [|j l]]]]]]]]]]; simpl;
    try (split; [split; [intros _; left; lia | reflexivity]
                | left; reflexivity]).
  destruct (strptime_HM h) as [dt|ex] eqn:Eh; simpl.
  - split; [|right; eauto].
    split; [discriminate|].
    intros [Hlen|(tok & Htok & Hr)]; [congruence|].
    injection Htok as <-. congruence.
  - pose proof (strptime_HM_raises _ _ Eh) as ->.
    split; [|left; reflexivity].
    split; [|reflexivity]. intros _. right. exists h. now split.
Qed.

Lemma schedule_line_raises_iff_witness :
  TimeList.__init__ [Samples.line_time_first] = Raises ValueError
  /\ exists r,
       TimeList.__init__ [Samples.line_year_first]
       = Returns {| TimeList.times := [r] |}.
Proof.
  split.
  - apply (proj1 (schedule_line_raises_iff Samples.line_time_first eq_refl)).
    right. exists "1904". split; reflexivity.
  - destruct (proj2 (schedule_line_raises_iff Samples.line_year_first
                       eq_refl)) as [H|H]; [discriminate H | exact H].
Defined.

Example unchecked_tokens_load :
  TimeList.__init__ ["a b c d e f g 1:2 h"]
  = Returns {| TimeList.times :=
                 [{| Time.season := "a"; Time.year := VStr "b";
                     Time.phase := "c"; Time.time := Samples.at_ 1 2 |}] |}.
Proof. reflexivity. Qed.

(** ** The message parser *)

Lemma filter_none {A} (p : A -> bool) (xs : list A) :
  existsb p xs = false -> filter p xs = [].
Proof.
  induction xs as [|x xs IH]; simpl; [reflexivity|].
  intros H. apply orb_false_elim in H as [Hx Hxs]. rewrite Hx. auto.
Qed.

Lemma next_hd_error {A} (xs : list A) (x : A) :
  hd_error xs = Some x -> next xs = Returns x.
Proof. destruct xs; simpl; congruence. Qed.

Lemma subscript_raises {A} (xs : list A) (i : nat) (e : exn) :
  subscript xs i = Raises e -> e = IndexError.
Proof. unfold subscript. destruct (nth_error xs i); congruence. Qed.

Lemma subscript_neg_raises {A} (xs : list A) (k : nat) (e : exn) :
  subscript_neg xs k = Raises e -> e = IndexError.
Proof.
  unfold subscript_neg. destruct (length xs <? k); [congruence|].
  apply subscript_raises.
Qed.

Lemma int_raises (s : string) (e : exn) : int s = Raises e -> e = ValueError.
Proof.
  unfold int.
  match goal with |- context [match ?b with Some _ => _ | None => _ end] =>
    destruct b end; congruence.
Qed.

Lemma fields_raises (txt : string) (timelist : TimeList.t) (e : exn) :
  Message.fields txt = Raises e -> Message.__init__ txt timelist = Raises e.
Proof. intros H. unfold Message.__init__. now rewrite H. Qed.

(** One statement of the constructor: either it raises, or the run goes on
    with its value. *)
Ltac statement :=
  match goal with
  | |- context [bind ?o _] =>
      let E := fresh "E" in
      destruct o eqn:E; cbn [bind]
  end.

Ltac raised :=
  match goal with
  | E : subscript _ _ = Raises ?e |- _ =>
      apply subscript_raises in E; subst e
  | E : subscript_neg _ _ = Raises ?e |- _ =>
      apply subscript_neg_raises in E; subst e
  | E : int _ = Raises ?e |- _ => apply int_raises in E; subst e
  end.

(** C8. A block in which no line begins with "From:", or none with "Date:",
    or none with "CC:" (the test ignores letter case) does not construct:
    [next] raises [StopIteration] before any field is assigned, and no
    message, partial or not, comes out. *)
Theorem missing_header_raises (txt : string) (timelist : TimeList.t) :
  has_header Message.is_from txt = false
  \/ has_header Message.is_date txt = false
  \/ has_header Message.is_cc txt = false ->
  Message.__init__ txt timelist = Raises StopIteration
  /\ Message.fields txt = Raises StopIteration.
Proof.
  unfold has_header. intros H.
  assert (Hf : Message.fields txt = Raises StopIteration).
  { unfold Message.fields. cbv zeta.
    destruct H as [H|[H|H]]; apply filter_none in H.
    - now rewrite H.
    - rewrite H.
      now destruct (filter Message.is_from _).
    - rewrite H.
      destruct (filter Message.is_from _); [reflexivity|].
      now destruct (filter Message.is_date _). }
  split; [|exact Hf]. now apply fields_raises.
Qed.

Lemma missing_header_raises_witness :
  Message.__init__ Samples.block_no_cc Samples.table_1904
  = Raises StopIteration.
Proof.
  apply (missing_header_raises Samples.block_no_cc Samples.table_1904).
  right. right. reflexivity.
Defined.

(** C10 as stated fails twice.  A From: line whose prefix is in another
    case and which holds the literal further on constructs a message; and a
    block whose CC: prefix is in lower case can fail earlier, on the
    conversion of the year, with a [ValueError]. *)
Lemma other_case_prefix_outcomes :
  header_line Message.is_from Samples.block_from_twice
  = Some "FROM: a From: b"
  /\ Str.startswith "FROM: a From: b" "From:" = false
  /\ Message.__init__ Samples.block_from_twice Samples.table_1904
     = Returns {| Message.from_ := "B"; Message.year := 1904;
                  Message.season := "Fall"; Message.to := "France";
                  Message.message := "hello";
                  Message.time := Samples.at_ 16 53 |}
  /\ header_line Message.is_cc Samples.block_lower_cc = Some "cc: france"
  /\ Str.startswith "cc: france" "CC:" = false
  /\ Message.__init__ Samples.block_lower_cc Samples.table_1904
     = Raises ValueError.
Proof.
  repeat split.
Qed.

(** C10, as the code has it.  In a block where the three header lines are
    found, a found line that holds its literal ("From:", "Date:", "CC:")
    nowhere stops the construction: with [IndexError] on the split result
    when the literal is missing from the From: or the Date: line, and with
    [IndexError] or an earlier [ValueError] when it is missing from the CC:
    line. *)
Theorem literal_absent_raises (txt : string) (timelist : TimeList.t)
  (from_line date_line to_line : string) :
  header_line Message.is_from txt = Some from_line ->
  header_line Message.is_date txt = Some date_line ->
  header_line Message.is_cc txt = Some to_line ->
  (Str.contains "From:" from_line = false ->
   Message.__init__ txt timelist = Raises IndexError)
  /\ (Str.contains "Date:" date_line = false ->
      Message.__init__ txt timelist = Raises IndexError)
  /\ (Str.contains "CC:" to_line = false ->
      Message.__init__ txt timelist = Raises IndexError
      \/ Message.__init__ txt timelist = Raises ValueError).
Proof.
  unfold header_line. intros Hf Hd Hc.
  apply next_hd_error in Hf, Hd, Hc.
  split; [|split]; intros Habs;
    pose proof (subscript_absent_1 _ _ Habs) as Hs;
    [apply fields_raises | apply fields_raises
    | cut (Message.fields txt = Raises IndexError
           \/ Message.fields txt = Raises ValueError);
      [intros [H|H]; [left|right]; now apply fields_raises|]];
    unfold Message.fields; cbv zeta; rewrite Hf, Hd, Hc; cbn [bind].
  - statement; [|now raised]. now rewrite Hs.
  - statement; [|now raised]. statement; [|now raised]. now rewrite Hs.
  - statement; [|raised; now left].
    statement; [|raised; now left].
    statement; [|raised; now left].
    statement; [|raised; now left].
    statement; [|raised; now right].
    statement; [|raised; now left].
    rewrite Hs. now left.
Qed.

Lemma literal_absent_raises_witness :
  Message.__init__ Samples.block_upper_from Samples.table_1904
  = Raises IndexError.
Proof.
  apply (proj1 (literal_absent_raises Samples.block_upper_from
                  Samples.table_1904 "FROM: x"
                  "Date: Mon Oct 7 16:53 1904 Fall 1904" "CC: france"
                  eq_refl eq_refl eq_refl)).
  reflexivity.
Defined.

(** * Further properties of the code *)

(** ** Queries of the deadline table *)

Lemma find_filter_implied {A} (p q : A -> bool) (xs : list A) :
  (forall x, p x = true -> q x = true) ->
  find p (filter q xs) = find p xs.
Proof.
  intros H. induction xs as [|x xs IH]; simpl; [reflexivity|].
  destruct (p x) eqn:Hp.
  - rewrite (H x Hp). simpl. now rewrite Hp.
  - destruct (q x); simpl; [now rewrite Hp | exact IH].
Qed.

Lemma find_app_found {A} (p : A -> bool) (xs ys : list A) (x : A) :
  find p xs = Some x -> find p (xs ++ ys) = Some x.
Proof.
  induction xs as [|a xs IH]; simpl; [discriminate|].
  destruct (p a); auto.
Qed.

Lemma matches_is_orders (season : string) (year : value) (r : Time.t) :
  matches season year r = true -> is_orders r = true.
Proof. unfold matches, is_orders. intros H. now apply andb_prop in H. Qed.

(** X1. Only the Orders records of a table take part in a query: the
    answer is the one of the table with every other record removed. *)
Theorem other_phases_are_ignored (self : TimeList.t) (season : string)
  (year : value) (time : datetime) (msg : string) :
  TimeList.after_deadline
    {| TimeList.times := filter is_orders (TimeList.times self) |}
    season year time msg
  = TimeList.after_deadline self season year time msg.
Proof.
  rewrite !after_deadline_consulted. unfold consulted. simpl.
  rewrite find_filter_implied; [reflexivity|].
  apply matches_is_orders.
Qed.

(** X2. Once a table holds a record that matches a query, records added
    after it never change the answer. *)
Theorem later_records_do_not_matter (self : TimeList.t) (more : list Time.t)
  (season : string) (year : value) (time : datetime) (msg : string)
  (r : Time.t) :
  In r (TimeList.times self) -> matches season year r = true ->
  TimeList.after_deadline
    {| TimeList.times := (TimeList.times self ++ more)%list |}
    season year time msg
  = TimeList.after_deadline self season year time msg.
Proof.
  intros Hin Hm. rewrite !after_deadline_consulted. unfold consulted. simpl.
  destruct (find (matches season year) (TimeList.times self)) as [x|] eqn:E.
  - now rewrite (find_app_found _ _ more _ E).
  - exfalso. pose proof (find_none _ _ E r Hin) as H. congruence.
Qed.

Lemma later_records_do_not_matter_witness :
  TimeList.after_deadline Samples.table_twice "Fall" (VStr "1904")
    (Samples.at_ 17 0) Samples.body80
  = TimeList.after_deadline Samples.table_1904 "Fall" (VStr "1904")
      (Samples.at_ 17 0) Samples.body80.
Proof.
  apply (later_records_do_not_matter Samples.table_1904
           [Samples.fall_1904 17 0] "Fall" (VStr "1904") (Samples.at_ 17 0)
           Samples.body80 (Samples.fall_1904 16 45)).
  - left. reflexivity.
  - reflexivity.
Defined.

(** X3. A query is answered with [True] or [False] exactly when some
    record of the table matches it; otherwise, and only then, the answer is
    [None]. *)
Theorem answered_iff_some_record_matches (self : TimeList.t)
  (season : string) (year : value) (time : datetime) (msg : string) :
  ((exists b, TimeList.after_deadline self season year time msg
              = Returns (Some b))
   <-> exists r, In r (TimeList.times self)
                 /\ matches season year r = true)
  /\ (TimeList.after_deadline self season year time msg = Returns None
      <-> forall r, In r (TimeList.times self) ->
                    matches season year r = false).
Proof.
  rewrite after_deadline_consulted. unfold consulted.
  destruct (find (matches season year) (TimeList.times self)) as [x|] eqn:E;
    simpl.
  - apply find_some in E as [Hin Hm]. split; split.
    + intros _. eauto.
    + intros _. eauto.
    + discriminate.
    + intros H. rewrite (H x Hin) in Hm. discriminate.
  - split; split.
    + intros [b Hb]. discriminate.
    + intros (r & Hin & Hm).
      pose proof (find_none _ _ E r Hin). congruence.
    + intros _ r Hin. exact (find_none _ _ E r Hin).
    + reflexivity.
Qed.

(** X4. The body of a message counts only through whether it is shorter
    than 50 characters: two bodies on the same side of that length get the
    same answer to every query. *)
Theorem body_counts_by_length (self : TimeList.t) (season : string)
  (year : value) (time : datetime) (msg1 msg2 : string) :
  (String.length msg1 <? 50) = (String.length msg2 <? 50) ->
  TimeList.after_deadline self season year time msg1
  = TimeList.after_deadline self season year time msg2.
Proof.
  intros H. rewrite !after_deadline_consulted.
  destruct (consulted self season year) as [r|]; simpl; [|reflexivity].
  unfold verdict. now rewrite H.
Qed.

Lemma body_counts_by_length_witness :
  TimeList.after_deadline Samples.table_1904 "Fall" (VStr "1904")
    (Samples.at_ 16 45) "short"
  = TimeList.after_deadline Samples.table_1904 "Fall" (VStr "1904")
      (Samples.at_ 16 45) "also short".
Proof.
  apply (body_counts_by_length Samples.table_1904 "Fall" (VStr "1904")
           (Samples.at_ 16 45) "short" "also short").
  reflexivity.
Defined.

Lemma verdict_monotone (r : Time.t) (t1 t2 : datetime) (msg : string) :
  dt_lt t1 t2 = true ->
  (verdict r t1 msg = true -> verdict r t2 msg = true)
  /\ (verdict r t2 msg = false -> verdict r t1 msg = false).
Proof.
  unfold verdict, dt_lt, dt_eq.
  destruct t1 as [h1 m1], t2 as [h2 m2], (Time.time r) as [h m]; simpl.
  destruct (String.length msg <? 50);
  destruct (Nat.ltb_spec h1 h2), (Nat.eqb_spec h1 h2), (Nat.ltb_spec m1 m2),
    (Nat.ltb_spec h1 h), (Nat.eqb_spec h1 h), (Nat.ltb_spec m1 m),
    (Nat.eqb_spec m1 m),
    (Nat.ltb_spec h2 h), (Nat.eqb_spec h2 h), (Nat.ltb_spec m2 m),
    (Nat.eqb_spec m2 m);
    simpl; intros; split; intros; try discriminate; try lia; auto.
Qed.

(** X5. The answer is monotone in the send time: when a message is after
    the deadline, the same message sent later is after it too, and when it
    is not after the deadline, the same message sent earlier is not
    either. *)
Theorem later_send_time_stays_after (self : TimeList.t) (season : string)
  (year : value) (t1 t2 : datetime) (msg : string) :
  dt_lt t1 t2 = true ->
  (TimeList.after_deadline self season year t1 msg = Returns (Some true) ->
   TimeList.after_deadline self season year t2 msg = Returns (Some true))
  /\ (TimeList.after_deadline self season year t2 msg
      = Returns (Some false) ->
      TimeList.after_deadline self season year t1 msg
      = Returns (Some false)).
Proof.
  intros Hlt. rewrite !after_deadline_consulted.
  destruct (consulted self season year) as [r|]; simpl;
    [|split; discriminate].
  destruct (verdict_monotone r t1 t2 msg Hlt) as [Hup Hdown].
  split; intros H; injection H as H; do 2 f_equal; auto.
Qed.

Lemma later_send_time_stays_after_witness :
  TimeList.after_deadline Samples.table_1904 "Fall" (VStr "1904")
    (Samples.at_ 17 30) "short" = Returns (Some true).
Proof.
  apply (proj1 (later_send_time_stays_after Samples.table_1904 "Fall"
                  (VStr "1904") (Samples.at_ 16 45) (Samples.at_ 17 30)
                  "short" eq_refl)).
  reflexivity.
Defined.

(** ** Loading the schedule *)

Lemma comprehension_app {A B} (f : A -> outcome B) (xs ys : list A) :
  comprehension f (xs ++ ys)
  = (a <- comprehension f xs ;;
     b <- comprehension f ys ;;
     Returns (a ++ b)%list).
Proof.
  induction xs as [|x xs IH]; simpl.
  - destruct (comprehension f ys); reflexivity.
  - destruct (f x) as [y|e]; simpl; [|reflexivity].
    rewrite IH. destruct (comprehension f xs) as [a|e]; simpl; [|reflexivity].
    destruct (comprehension f ys); reflexivity.
Qed.

Lemma comprehension_Forall2 {A B} (f : A -> outcome B) (xs : list A)
  (ys : list B) :
  comprehension f xs = Returns ys
  <-> Forall2 (fun x y => f x = Returns y) xs ys.
Proof.
  revert ys. induction xs as [|x xs IH]; intros ys; simpl.
  - split.
    + intros H. injection H as <-. constructor.
    + intros H. inversion H. reflexivity.
  - split.
    + intros H. apply bind_Returns_inv in H as (y & Hy & H).
      apply bind_Returns_inv in H as (ys' & Hys & H). injection H as <-.
      constructor; [assumption|]. now apply IH.
    + intros H. inversion H as [|x' y xs' ys' Hy Hys]; subst.
      rewrite Hy. simpl. apply IH in Hys. now rewrite Hys.
Qed.

Lemma comprehension_raises {A B} (f : A -> outcome B) (xs : list A) :
  raises (comprehension f xs) <-> exists x, In x xs /\ raises (f x).
Proof.
  unfold raises. induction xs as [|x xs IH]; simpl.
  - split; [intros [e H]; discriminate | intros (x & [] & _)].
  - destruct (f x) as [y|e] eqn:Ex; simpl.
    + destruct (comprehension f xs) as [ys|e']; simpl.
      * split; [intros [e H]; discriminate|].
        intros (x' & [<-|Hin] & [e He]); [congruence|].
        destruct (proj2 IH) as [e' He']; [eauto | discriminate].
      * split; [|eauto]. intros _.
        destruct (proj1 IH) as (x' & Hin & Hr); eauto.
    + split; [|eauto]. intros _. exists x. split; [now left | eauto].
Qed.

Lemma comprehension_raises_same {A B} (f : A -> outcome B) (e0 : exn) :
  (forall x e, f x = Raises e -> e = e0) ->
  forall xs e, comprehension f xs = Raises e -> e = e0.
Proof.
  intros H xs. induction xs as [|x xs IH]; simpl; intros e He;
    [discriminate|].
  destruct (f x) as [y|e'] eqn:Ex; simpl in He.
  - destruct (comprehension f xs) as [ys|e'']; simpl in He;
      [discriminate|]. injection He as <-. now apply IH.
  - injection He as <-. eauto.
Qed.

Lemma Time_init_raises (line : string) (e : exn) :
  Time.__init__ line = Raises e -> e = ValueError.
Proof.
  unfold Time.__init__.
  destruct (Str.split (Str.strip line) " ")
    as [|a [|b [|c [|d [|e' [|f [|g [|h [|i [|j l]]]]]]]]]];
    try congruence.
  destruct (strptime_HM h) as [dt|ex] eqn:Eh; simpl; [discriminate|].
  intros H. injection H as <-. eapply strptime_HM_raises; eassumption.
Qed.

(** X6. A schedule in two parts loads as the two parts one after the
    other: the records of the first part, then those of the second; when
    the first part does not load, what it raises is what the whole file
    raises. *)
Theorem load_of_two_parts (f1 f2 : list string) :
  TimeList.__init__ (f1 ++ f2)%list
  = (t1 <- TimeList.__init__ f1 ;;
     t2 <- TimeList.__init__ f2 ;;
     Returns {| TimeList.times :=
                  (TimeList.times t1 ++ TimeList.times t2)%list |}).
Proof.
  unfold TimeList.__init__. rewrite filter_app, comprehension_app.
  destruct (comprehension Time.__init__ (filter TimeList.kept f1));
    simpl; [|reflexivity].
  destruct (comprehension Time.__init__ (filter TimeList.kept f2));
    reflexivity.
Qed.

(** X7. A load returns a table exactly when every line that is not passed
    over builds a record, and the table then holds those records, one per
    such line, in the order of the file. *)
Theorem load_is_line_by_line (f : list string) (self : TimeList.t) :
  TimeList.__init__ f = Returns self
  <-> Forall2 (fun line r => Time.__init__ line = Returns r)
        (filter TimeList.kept f) (TimeList.times self).
Proof.
  unfold TimeList.__init__. rewrite <- comprehension_Forall2.
  destruct (comprehension Time.__init__ (filter TimeList.kept f)) as [ts|e];
    simpl; destruct self as [ts']; simpl.
  - split; intros H; injection H as ->; reflexivity.
  - split; discriminate.
Qed.

(** X8. A load raises exactly when some line that is not passed over does
    not build a record, and what it raises is always a [ValueError]. *)
Theorem load_raises_on_a_bad_line (f : list string) :
  (raises (TimeList.__init__ f)
   <-> exists line, In line f /\ TimeList.kept line = true
                    /\ raises (Time.__init__ line))
  /\ (forall e, TimeList.__init__ f = Raises e -> e = ValueError).
Proof.
  split.
  - transitivity (raises (comprehension Time.__init__
                            (filter TimeList.kept f))).
    + unfold TimeList.__init__, raises.
      destruct (comprehension Time.__init__ (filter TimeList.kept f))
        as [ts|e0]; simpl; split; intros [e1 H]; eauto; discriminate.
    + rewrite comprehension_raises. split.
      * intros (line & Hin & Hr). apply filter_In in Hin as [Hin Hk]. eauto.
      * intros (line & Hin & Hk & Hr). exists line. split; [|assumption].
        apply filter_In. auto.
  - intros e. unfold TimeList.__init__.
    destruct (comprehension Time.__init__ (filter TimeList.kept f))
      as [ts|e'] eqn:E; simpl; [discriminate|].
    intros H. injection H as <-.
    eapply comprehension_raises_same; [|exact E]. apply Time_init_raises.
Qed.

Lemma directive_H_bound (s : string) (h : nat) (rest : string) :
  directive_H s = Some (h, rest) -> h <= 23.
Proof.
  unfold directive_H, digit.
  destruct s as [|a s]; [discriminate|].
  destruct ((48 <=? nat_of_ascii a) && (nat_of_ascii a <=? 57)) eqn:Ea;
    [|discriminate].
  apply andb_prop in Ea as [Ea1 Ea2].
  apply Nat.leb_le in Ea1, Ea2.
  destruct s as [|b s].
  - intros [= <- <-]. lia.
  - destruct ((48 <=? nat_of_ascii b) && (nat_of_ascii b <=? 57));
      [|intros [= <- <-]; lia].
    destruct (Nat.leb_spec
                (10 * (nat_of_ascii a - 48) + (nat_of_ascii b - 48)) 23);
      intros [= <- <-]; lia.
Qed.

Lemma directive_M_bound (s : string) (m : nat) (rest : string) :
  directive_M s = Some (m, rest) -> m <= 59.
Proof.
  unfold directive_M, digit.
  destruct s as [|a s]; [discriminate|].
  destruct ((48 <=? nat_of_ascii a) && (nat_of_ascii a <=? 57)) eqn:Ea;
    [|discriminate].
  apply andb_prop in Ea as [Ea1 Ea2].
  apply Nat.leb_le in Ea1, Ea2.
  destruct s as [|b s].
  - intros [= <- <-]. lia.
  - destruct ((48 <=? nat_of_ascii b) && (nat_of_ascii b <=? 57)) eqn:Eb;
      [|intros [= <- <-]; lia].
    apply andb_prop in Eb as [Eb1 Eb2].
    apply Nat.leb_le in Eb1, Eb2.
    destruct (Nat.leb_spec (nat_of_ascii a - 48) 5);
      intros [= <- <-]; lia.
Qed.

Lemma strptime_HM_valid (s : string) (t : datetime) :
  strptime_HM s = Returns t -> valid_time t.
Proof.
  unfold strptime_HM, valid_time.
  destruct (directive_H s) as [[h rest]|] eqn:EH; [|discriminate].
  destruct rest as [|c rest]; [discriminate|].
  destruct (Ascii.eqb_spec c ":") as [->|Hc].
  - destruct (directive_M rest) as [[m [|c' r']]|] eqn:EM; try discriminate.
    intros H. injection H as <-. simpl.
    split; [eapply directive_H_bound | eapply directive_M_bound];
      eassumption.
  - destruct c as [[] [] [] [] [] [] [] []]; congruence.
Qed.

(** X9. Every deadline of a loaded table is a time of day: its hour is at
    most 23 and its minute at most 59. *)
Theorem loaded_deadlines_are_times_of_day (f : list string)
  (self : TimeList.t) (r : Time.t) :
  TimeList.__init__ f = Returns self ->
  In r (TimeList.times self) ->
  valid_time (Time.time r).
Proof.
  unfold TimeList.__init__. intros H Hin.
  apply bind_Returns_inv in H as (ts & Hts & H). injection H as <-.
  simpl in Hin.
  assert (HF : Forall (fun r => valid_time (Time.time r)) ts).
  { eapply comprehension_Forall; [|exact Hts].
    intros line t. unfold Time.__init__.
    destruct (Str.split (Str.strip line) " ")
      as [|a [|b [|c [|d [|e' [|g [|g' [|h [|i [|j l]]]]]]]]]];
      try discriminate.
    intros Ht. apply bind_Returns_inv in Ht as (dt & Hdt & Ht).
    injection Ht as <-. simpl. eapply strptime_HM_valid; eassumption. }
  rewrite Forall_forall in HF. auto.
Qed.

Lemma loaded_deadlines_are_times_of_day_witness :
  valid_time (Time.time (Samples.fall_1904 16 45)).
Proof.
  apply (loaded_deadlines_are_times_of_day [Samples.line_year_first]
           Samples.table_1904 (Samples.fall_1904 16 45) eq_refl).
  left. reflexivity.
Defined.

(** ** Whitespace around a line *)

Lemma lstrip_app (s u : string) :
  Str.lstrip_by Str.isspace (s ++ u)
  = if Str.whitespace_only s then Str.lstrip_by Str.isspace u
    else (Str.lstrip_by Str.isspace s ++ u)%string.
Proof.
  induction s as [|c s IH]; simpl; [reflexivity|].
  destruct (Str.isspace c); simpl; [exact IH | reflexivity].
Qed.

Lemma rstrip_app_space (p : ascii -> bool) (t : string) (c : ascii) :
  p c = true ->
  Str.rstrip_by p (t ++ String c "") = Str.rstrip_by p t.
Proof.
  intros Hc. induction t as [|a t IH]; simpl.
  - now rewrite Hc.
  - now rewrite IH.
Qed.

Lemma strip_app_space (s : string) (c : ascii) :
  Str.isspace c = true -> Str.strip (s ++ String c "") = Str.strip s.
Proof.
  intros Hc. unfold Str.strip. rewrite lstrip_app.
  destruct (Str.whitespace_only s) eqn:Hs.
  - rewrite (lstrip_whitespace_only _ Hs). simpl. now rewrite Hc.
  - now apply rstrip_app_space.
Qed.

Lemma strip_linesep (s : string) : Str.strip (s ++ os_linesep) = Str.strip s.
Proof. now apply strip_app_space. Qed.

Lemma rstrip_idempotent (p : ascii -> bool) (s : string) :
  Str.rstrip_by p (Str.rstrip_by p s) = Str.rstrip_by p s.
Proof.
  induction s as [|c s IH]; simpl; [reflexivity|].
  destruct (Str.is_empty (Str.rstrip_by p s) && p c) eqn:E;
    [reflexivity|].
  simpl. now rewrite IH, E.
Qed.

Lemma lstrip_head (p : ascii -> bool) (s : string) :
  Str.lstrip_by p s = ""
  \/ exists c r, Str.lstrip_by p s = String c r /\ p c = false.
Proof.
  induction s as [|c s IH]; simpl; [now left|].
  destruct (p c) eqn:Hc; [exact IH | right; eauto].
Qed.

(** What [strip] hands back is empty or begins with a character that is
    not whitespace, and stripping its right end again changes nothing. *)
Lemma strip_shape (s : string) :
  Str.rstrip_by Str.isspace (Str.strip s) = Str.strip s
  /\ (Str.strip s = ""
      \/ exists c r, Str.strip s = String c r /\ Str.isspace c = false).
Proof.
  unfold Str.strip. split; [apply rstrip_idempotent|].
  destruct (lstrip_head Str.isspace s) as [->|(c & r & -> & Hc)];
    [now left|].
  right. simpl. rewrite Hc, andb_false_r. eauto.
Qed.

Lemma trimmed_of_shape (s : string) :
  Str.rstrip_by Str.isspace s = s ->
  (s = "" \/ exists c r, s = String c r /\ Str.isspace c = false) ->
  trimmed s.
Proof.
  intros Hr [->|(c & r & -> & Hc)]; [reflexivity|].
  unfold trimmed, Str.strip. cbn [Str.lstrip_by]. rewrite Hc. exact Hr.
Qed.

Lemma strip_trimmed (s : string) : trimmed (Str.strip s).
Proof.
  destruct (strip_shape s). now apply trimmed_of_shape.
Qed.

(** X10. The line terminator that the file iterator leaves at the end of
    each line plays no part in a load: the schedule loads the same with a
    line feed added to every line. *)
Theorem terminators_do_not_matter (f : list string) :
  TimeList.__init__ (map (fun line => line ++ os_linesep) f)
  = TimeList.__init__ f.
Proof.
  unfold TimeList.__init__. f_equal.
  induction f as [|line f IH]; simpl; [reflexivity|].
  assert (Hk : TimeList.kept (line ++ os_linesep) = TimeList.kept line).
  { unfold TimeList.kept. now rewrite strip_linesep. }
  assert (Ht : Time.__init__ (line ++ os_linesep) = Time.__init__ line).
  { unfold Time.__init__. now rewrite strip_linesep. }
  rewrite Hk. destruct (TimeList.kept line); [|exact IH].
  simpl. now rewrite Ht, IH.
Qed.

(** ** Fields of a constructed message *)

Lemma isspace_to_lower (c : ascii) :
  Str.isspace (Str.to_lower c) = Str.isspace c.
Proof. destruct c as [[] [] [] [] [] [] [] []]; reflexivity. Qed.

Lemma isspace_to_upper (c : ascii) :
  Str.isspace (Str.to_upper c) = Str.isspace c.
Proof. destruct c as [[] [] [] [] [] [] [] []]; reflexivity. Qed.

Lemma rstrip_lower (s : string) :
  Str.rstrip_by Str.isspace (Str.lower s)
  = Str.lower (Str.rstrip_by Str.isspace s).
Proof.
  induction s as [|c s IH]; simpl; [reflexivity|].
  rewrite IH, isspace_to_lower.
  assert (He : Str.is_empty (Str.lower (Str.rstrip_by Str.isspace s))
               = Str.is_empty (Str.rstrip_by Str.isspace s))
    by (destruct (Str.rstrip_by Str.isspace s); reflexivity).
  rewrite He.
  destruct (Str.is_empty (Str.rstrip_by Str.isspace s) && Str.isspace c);
    reflexivity.
Qed.

Lemma rstrip_title_from (s : string) :
  forall b, Str.rstrip_by Str.isspace (Str.title_from b s)
            = Str.title_from b (Str.rstrip_by Str.isspace s).
Proof.
  induction s as [|c s IH]; intros b; simpl; [reflexivity|].
  rewrite IH.
  assert (Hc : Str.isspace (if b then Str.to_lower c else Str.to_upper c)
               = Str.isspace c)
    by (destruct b; [apply isspace_to_lower | apply isspace_to_upper]).
  rewrite Hc.
  assert (He : forall b', Str.is_empty
                 (Str.title_from b' (Str.rstrip_by Str.isspace s))
               = Str.is_empty (Str.rstrip_by Str.isspace s))
    by (intros b'; destruct (Str.rstrip_by Str.isspace s); reflexivity).
  rewrite He.
  destruct (Str.is_empty (Str.rstrip_by Str.isspace s) && Str.isspace c);
    reflexivity.
Qed.

Lemma trimmed_shape (s : string) :
  trimmed s ->
  Str.rstrip_by Str.isspace s = s
  /\ (s = "" \/ exists c r, s = String c r /\ Str.isspace c = false).
Proof.
  unfold trimmed. intros H. pose proof (strip_shape s) as Hs.
  now rewrite H in Hs.
Qed.

Lemma trimmed_lower (s : string) : trimmed s -> trimmed (Str.lower s).
Proof.
  intros H. apply trimmed_shape in H as [Hr Hh].
  apply trimmed_of_shape.
  - now rewrite rstrip_lower, Hr.
  - destruct Hh as [->|(c & r & -> & Hc)]; [now left|].
    right. simpl. eexists _, _. split; [reflexivity|].
    now rewrite isspace_to_lower.
Qed.

Lemma trimmed_title (s : string) : trimmed s -> trimmed (Str.title s).
Proof.
  intros H. apply trimmed_shape in H as [Hr Hh].
  apply trimmed_of_shape.
  - unfold Str.title. now rewrite rstrip_title_from, Hr.
  - destruct Hh as [->|(c & r & -> & Hc)]; [now left|].
    right. unfold Str.title. simpl. eexists _, _. split; [reflexivity|].
    now rewrite isspace_to_upper.
Qed.

(** The pieces of a split at one character do not hold that character. *)
Lemma split_from_lacks (c : ascii) (s : string) :
  forall cur piece,
    lacks c cur = true ->
    In piece (Str.split_from (String c "") 0 cur s) ->
    lacks c piece = true.
Proof.
  assert (Happ : forall cur a, lacks c cur = true -> a <> c ->
                   lacks c (cur ++ String a "") = true).
  { induction cur as [|x cur IH]; simpl; intros a Hl Ha.
    - destruct (Ascii.eqb_spec a c); [contradiction | reflexivity].
    - apply andb_prop in Hl as [Hx Hl]. rewrite Hx. simpl. auto. }
  induction s as [|a s IH]; intros cur piece Hcur Hin.
  - simpl in Hin. destruct Hin as [<-|[]]. exact Hcur.
  - cbn [Str.split_from String.prefix String.length Nat.sub] in Hin.
    destruct (ascii_dec c a) as [->|Hne].
    + assert (Hp : String.prefix "" s = true) by (destruct s; reflexivity).
      rewrite Hp in Hin. destruct Hin as [<-|Hin]; [exact Hcur|].
      eapply IH; [|exact Hin]. reflexivity.
    + eapply IH; [|exact Hin]. apply Happ; congruence.
Qed.

Lemma split_lacks (c : ascii) (s piece : string) :
  In piece (Str.split s (String c "")) -> lacks c piece = true.
Proof. apply split_from_lacks. reflexivity. Qed.

Lemma subscript_In {A} (xs : list A) (i : nat) (x : A) :
  subscript xs i = Returns x -> In x xs.
Proof.
  unfold subscript. destruct (nth_error xs i) eqn:E; [|discriminate].
  intros [= <-]. eapply nth_error_In; eassumption.
Qed.

Lemma subscript_neg_In {A} (xs : list A) (k : nat) (x : A) :
  subscript_neg xs k = Returns x -> In x xs.
Proof.
  unfold subscript_neg. destruct (length xs <? k); [discriminate|].
  apply subscript_In.
Qed.

(** The statements of [fields] one by one, from a run that returns. *)
Ltac returned H :=
  repeat match type of H with
         | bind _ _ = Returns _ =>
             let x := fresh "x" in
             let E := fresh "E" in
             apply bind_Returns_inv in H as (x & E & H); cbv beta in H
         end.

Lemma fields_time_valid (txt : string) (m : Message.t) :
  Message.fields txt = Returns m -> valid_time (Message.time m).
Proof.
  unfold Message.fields. cbv zeta. intros H. returned H.
  injection H as <-. simpl.
  match goal with E : strptime_HM _ = Returns _ |- _ =>
    exact (strptime_HM_valid _ _ E) end.
Qed.

(** X11. In every message that the header fields give, the sender, the
    recipients and the body have no whitespace at either end, the send time
    is a time of day, and the season holds no space. *)
Theorem message_fields_are_clean (txt : string) (m : Message.t) :
  Message.fields txt = Returns m ->
  trimmed (Message.from_ m)
  /\ trimmed (Message.to m)
  /\ trimmed (Message.message m)
  /\ valid_time (Message.time m)
  /\ lacks " " (Message.season m) = true.
Proof.
  unfold Message.fields. cbv zeta. intros H. returned H.
  injection H as <-. simpl.
  repeat split.
  - apply trimmed_title, trimmed_lower, strip_trimmed.
  - apply trimmed_title, trimmed_lower, strip_trimmed.
  - apply strip_trimmed.
  - match goal with E : strptime_HM _ = Returns _ |- _ =>
      apply (proj1 (strptime_HM_valid _ _ E)) end.
  - match goal with E : strptime_HM _ = Returns _ |- _ =>
      apply (proj2 (strptime_HM_valid _ _ E)) end.
  - match goal with E : subscript_neg _ 2 = Returns _ |- _ =>
      apply subscript_neg_In in E; now apply split_lacks in E end.
Qed.

Lemma message_fields_are_clean_witness :
  trimmed "England" /\ trimmed "France" /\ trimmed Samples.body80
  /\ valid_time (Samples.at_ 16 53) /\ lacks " " "Fall" = true.
Proof.
  apply (message_fields_are_clean Samples.block_1904 Samples.nominal_1904).
  reflexivity.
Defined.

(** X12. The deadline table has no part in whether a message is
    constructed, nor in its sender, recipients, body and send time: the
    constructor raises exactly what the header fields raise, and a message
    it returns differs from the header fields in season and year at
    most. *)
Theorem table_touches_season_and_year_only (txt : string)
  (timelist : TimeList.t) :
  (forall e, Message.__init__ txt timelist = Raises e
             <-> Message.fields txt = Raises e)
  /\ (forall m, Message.__init__ txt timelist = Returns m ->
        exists nominal,
          Message.fields txt = Returns nominal
          /\ Message.from_ m = Message.from_ nominal
          /\ Message.to m = Message.to nominal
          /\ Message.message m = Message.message nominal
          /\ Message.time m = Message.time nominal).
Proof.
  unfold Message.__init__.
  destruct (Message.fields txt) as [n|e0]; simpl.
  - rewrite after_deadline_consulted. simpl. split.
    + intros e. split; discriminate.
    + intros m [= <-]. exists n. split; [reflexivity|].
      unfold Message.change_season.
      destruct (truthy _); repeat split.
  - split; [intros e; reflexivity | discriminate].
Qed.

(** X13. A season change leaves the year or adds one to it, and always
    lands on "Fall" or "Spring": a nominal season that is neither "Spring"
    nor "Fall" becomes "Spring" of the same year, and two changes in a row
    from "Spring" or from "Fall" come back to the same season one year
    later. *)
Theorem season_change_steps (self : Message.t) :
  let once := Message.change_season (Some true) self in
  let twice := Message.change_season (Some true) once in
  (Message.season once = "Fall" \/ Message.season once = "Spring")
  /\ (Message.year self <= Message.year once <= Message.year self + 1)%Z
  /\ (Message.season self <> "Spring" -> Message.season self <> "Fall" ->
      Message.season once = "Spring"
      /\ Message.year once = Message.year self)
  /\ (Message.season self = "Spring" \/ Message.season self = "Fall" ->
      Message.season twice = Message.season self
      /\ Message.year twice = (Message.year self + 1)%Z).
Proof.
  unfold Message.change_season. simpl.
  destruct (String.eqb_spec (Message.season self) "Spring") as [Hs|Hs];
  destruct (String.eqb_spec (Message.season self) "Fall") as [Hf|Hf];
    simpl; repeat split; auto; try lia; try congruence;
    match goal with H : _ \/ _ |- _ => destruct H; congruence end.
Qed.

Lemma season_change_steps_witness :
  Message.season
    (Message.change_season (Some true) MoreSamples.winter_1901) = "Spring"
  /\ Message.year
       (Message.change_season (Some true) MoreSamples.winter_1901) = 1901%Z.
Proof.
  apply (proj1 (proj2 (proj2 (season_change_steps MoreSamples.winter_1901)))).
  - discriminate.
  - discriminate.
Defined.

(** ** What [__str__] prints *)









(** Every time of day, printed and read again, on the 1440 of them. *)
Lemma clock_round_trip_checked :
  forallb (fun h =>
    forallb (fun m =>
      match strptime_HM (strftime_HM {| hour := h; minute := m |}) with
      | Returns t => (hour t =? h) && (minute t =? m)
      | Raises _ => false
      end
      && lacks Str.LF (strftime_HM {| hour := h; minute := m |}))
      (seq 0 60))
    (seq 0 24) = true.
Proof. vm_compute. reflexivity. Qed.

Lemma clock_round_trip (t : datetime) :
  valid_time t ->
  strptime_HM (strftime_HM t) = Returns t
  /\ lacks Str.LF (strftime_HM t) = true.
Proof.
  destruct t as [h m]. unfold valid_time. cbn [hour minute]. intros [Hh Hm].
  assert (Hin : In h (seq 0 24)) by (apply in_seq; lia).
  assert (Hin' : In m (seq 0 60)) by (apply in_seq; lia).
  pose proof (proj1 (forallb_forall _ _) clock_round_trip_checked h Hin)
    as H.
  cbv beta in H.
  pose proof (proj1 (forallb_forall _ _) H m Hin') as H'.
  cbv beta in H'. clear H.
  apply andb_prop in H' as [H Hl].
  split; [|exact Hl].
  destruct (strptime_HM (strftime_HM {| hour := h; minute := m |}))
    as [[h' m']|e]; [|discriminate].
  cbn [hour minute] in H. apply andb_prop in H as [H1 H2].
  apply Nat.eqb_eq in H1, H2. now subst.
Qed.

(** X15. The send time that [__str__] prints reads back: for every message
    that the header fields give, [strptime] on the printed time returns the
    send time of the message. *)
Theorem printed_time_reads_back (txt : string) (m : Message.t) :
  Message.fields txt = Returns m ->
  strptime_HM (strftime_HM (Message.time m)) = Returns (Message.time m).
Proof.
  intros H. apply clock_round_trip.
  now apply (fields_time_valid txt m).
Qed.

Lemma printed_time_reads_back_witness :
  strptime_HM (strftime_HM (Samples.at_ 16 53))
  = Returns (Samples.at_ 16 53).
Proof.
  apply (printed_time_reads_back Samples.block_1904 Samples.nominal_1904).
  reflexivity.
Defined.




















(** ** The script: from log files to blocks *)

Lemma gathered_snoc (cur : list string) (line : string) :
  gathered (cur ++ [line])
  = (gathered cur ++ (line ++ os_linesep))%string.
Proof.
  induction cur as [|l cur IH]; [reflexivity|].
  cbn [app gathered]. rewrite IH. now rewrite !append_assoc.
Qed.

(** The loop over the lines of a file closes a block at each separator
    line; [s] holds the lines read since the last one. *)
Lemma read_lines_groups (f : list string) :
  forall texts cur,
    Script.read_lines f texts (gathered cur)
    = ((texts ++ map gathered (fst (groups f cur)))%list,
       gathered (snd (groups f cur))).
Proof.
  induction f as [|line f IH]; intros texts cur; simpl.
  - now rewrite app_nil_r.
  - destruct (Script.is_separator line).
    + change EmptyString with (gathered []). rewrite IH.
      destruct (groups f []) as [gs rest]. simpl.
      now rewrite <- app_assoc.
    + rewrite <- gathered_snoc. apply IH.
Qed.

Lemma read_files_groups (fs : list Script.file) :
  forall texts,
    Script.read_files fs texts
    = (texts
       ++ flat_map (fun f => map gathered
                               (fst (groups (Script.lines f) []))) fs)%list.
Proof.
  induction fs as [|f fs IH]; intros texts; simpl.
  - now rewrite app_nil_r.
  - change EmptyString with (gathered []).
    rewrite read_lines_groups. simpl. rewrite IH. now rewrite app_assoc.
Qed.

Lemma groups_count (f : list string) :
  forall cur,
    length (fst (groups f cur)) = length (filter Script.is_separator f).
Proof.
  induction f as [|line f IH]; intros cur; simpl; [reflexivity|].
  destruct (Script.is_separator line); [|apply IH].
  specialize (IH []). destruct (groups f []) as [gs rest]. simpl in *.
  now rewrite IH.
Qed.

Lemma groups_app_open (f tail : list string) :
  (forall l, In l tail -> Script.is_separator l = false) ->
  forall cur, fst (groups (f ++ tail) cur) = fst (groups f cur).
Proof.
  intros Htail. induction f as [|line f IH]; intros cur; simpl.
  - revert cur. induction tail as [|l tail IHt]; intros cur; simpl;
      [reflexivity|].
    rewrite (Htail l (or_introl eq_refl)). apply IHt.
    intros l' Hl'. apply Htail. now right.
  - destruct (Script.is_separator line); [|apply IH].
    specialize (IH []).
    destruct (groups (f ++ tail) []) as [gs rest],
             (groups f []) as [gs' rest']. simpl in *. now rewrite IH.
Qed.

(** X17. The script gathers one block for each separator line of the files
    it reads, no more and no fewer. *)
Theorem one_block_per_separator (fs : list Script.file)
  (texts : list string) :
  length (Script.read_files fs texts)
  = length texts + list_sum (map separators fs).
Proof.
  rewrite read_files_groups, length_app. f_equal.
  induction fs as [|f fs IH]; simpl; [reflexivity|].
  rewrite length_app, length_map, groups_count, IH. reflexivity.
Qed.

(** X18. Lines that no separator line follows are lost: whatever a file
    holds after its last separator line, the script gathers the same blocks
    as without those lines, so a file with no separator line gives no block
    at all. *)
Theorem lines_after_last_separator_are_lost (before after : list Script.file)
  (p : string) (ls tail : list string) (texts : list string) :
  (forall l, In l tail -> Script.is_separator l = false) ->
  Script.read_files
    (before ++ {| Script.path := p; Script.lines := ls ++ tail |} :: after)
    texts
  = Script.read_files
      (before ++ {| Script.path := p; Script.lines := ls |} :: after) texts.
Proof.
  intros Htail. rewrite !read_files_groups. f_equal.
  rewrite !flat_map_app. simpl. now rewrite (groups_app_open ls tail Htail).
Qed.

Lemma lines_after_last_separator_are_lost_witness :
  Script.read_files [MoreSamples.log_file] []
  = Script.read_files
      [{| Script.path := "game/log.txt";
          Script.lines := firstn 6 (Script.lines MoreSamples.log_file) |}]
      [].
Proof.
  apply (lines_after_last_separator_are_lost [] [] "game/log.txt"
           (firstn 6 (Script.lines MoreSamples.log_file))
           ["From: nobody" ++ os_linesep] []).
  intros l [<-|[]]. reflexivity.
Defined.






(** ** The script: from blocks to messages *)

(** Against a table that the loader built, the constructor returns what the
    header fields give. *)
Lemma init_on_loaded_table (f : list string) (timelist : TimeList.t) :
  TimeList.__init__ f = Returns timelist ->
  forall txt, Message.__init__ txt timelist = Message.fields txt.
Proof.
  intros Hload txt. pose proof (loaded_years_str _ _ Hload) as Hstr.
  rewrite Forall_forall in Hstr.
  unfold Message.__init__.
  destruct (Message.fields txt) as [m|e]; simpl; [|reflexivity].
  rewrite after_deadline_consulted, consulted_none; [reflexivity|].
  intros r Hin. destruct (Hstr r Hin) as [y Hy].
  eapply matches_int_str; eassumption.
Qed.

Lemma comprehension_ext {A B} (f g : A -> outcome B) (xs : list A) :
  (forall x, f x = g x) -> comprehension f xs = comprehension g xs.
Proof.
  intros H. induction xs as [|x xs IH]; simpl; [reflexivity|].
  now rewrite H, IH.
Qed.

(** X20. A run of the script is all or nothing.  With fewer than two
    arguments it exits before reading anything; otherwise it returns its
    messages exactly when the schedule loads and the header fields of every
    block parse, and the messages are then those header fields, one per
    block, in the order of the blocks. *)
Theorem run_is_all_or_nothing (argv : list string)
  (walked : list Script.file) (timefile : list string) :
  (Script.main argv walked timefile = None <-> length argv < 3)
  /\ (forall msgs,
         Script.main argv walked timefile = Some (Returns msgs)
         <-> 3 <= length argv
             /\ (exists timelist,
                    TimeList.__init__ timefile = Returns timelist)
             /\ Forall2 (fun t m => Message.fields t = Returns m)
                  (texts_of walked) msgs).
Proof.
  unfold Script.main. fold (texts_of walked).
  destruct (Nat.ltb_spec (length argv) 3) as [Hlt|Hge].
  - split; [tauto|]. intros msgs. split; [discriminate|].
    intros (H & _). lia.
  - split; [split; [discriminate | lia]|].
    intros msgs.
    destruct (TimeList.__init__ timefile) as [timelist|e] eqn:Eload; simpl.
    + rewrite (comprehension_ext _ Message.fields)
        by (apply (init_on_loaded_table timefile); exact Eload).
      rewrite <- comprehension_Forall2. split.
      * intros [= H]. eauto.
      * intros (_ & _ & H). now rewrite H.
    + split; [discriminate|]. intros (_ & [tl Htl] & _). discriminate.
Qed.

Example run_on_sample_log :
  Script.main ["gameparser.py"; "game"; "history.txt"]
    [MoreSamples.notes_file; MoreSamples.log_file]
    [Samples.line_year_first ++ os_linesep]
  = Some (Returns
      [{| Message.from_ := "England"; Message.year := 1904;
          Message.season := "Fall"; Message.to := "France";
          Message.message :=
            "hello" ++ os_linesep ++ os_linesep ++ "there";
          Message.time := Samples.at_ 16 53 |}]).
Proof. reflexivity. Qed.
